(** * Purchase validation endpoint (api/validate-purchase.js)

    A shallow embedding of the request handler, its in-memory order cache,
    the two purchase validators, the signature stub and the eviction sweep,
    followed by the properties of the endpoint.

    Conventions of the embedding:
    - JavaScript strings are [string]; the millisecond clock ([Date.now()]) and
      the remote return code are [Z]; number-to-string conversion in template
      literals and in [+] is decimal rendering ([pretty]) for clock readings
      and HTTP statuses, and [Number_toString] for the remote return code,
      which can be any integer the remote sends.
    - A request field is [option string]: [None] is an absent field
      ([undefined] after destructuring), [Some s] a string field.
    - [orderCache] (a JS [Map]) is a [gmap string Order]; response bodies
      (JS objects) are [gmap string jsval].
    - Everything the handler reads from its runtime during one invocation
      (clock readings, the random suffix, the outcome of the outbound call) is
      collected in an [Env] record, one field per reading site.
    - The handler runs in a small state monad over [World]: the cache plus a
      trace of the cache operations and validator invocations performed.
      Console output is not part of the model. *)

From Stdlib Require Import ZArith.
From stdpp Require Import base option list gmap strings pretty sorting.

(** ** JavaScript values that appear in response bodies *)

Inductive jsval : Type :=
  | JBool (b : bool)
  | JNum (z : Z)
  | JStr (s : string)
  | JDate (t : Z).   (* [new Date().toISOString()] taken at instant [t] *)

#[global] Instance jsval_eq_dec : EqDecision jsval.
Proof. solve_decision. Defined.

(** [s.startsWith(p)] *)
Definition startsWith (s p : string) : bool := String.prefix p s.

(** [s.slice(0, -1)] *)
Definition slice_0_m1 (s : string) : string :=
  String.substring 0 (String.length s - 1) s.

(** [!x] on a request field: absent and the empty string are falsy.  The
    result is the string itself when the field is truthy. *)
Definition truthy (x : option string) : option string :=
  match x with
  | Some s => if String.eqb s "" then None else Some s
  | None => None
  end.

(** ** Data model *)

Record Body : Type := mkBody {
  product_id : option string;
  purchase_token : option string;
  user_id : option string;
  platform : option string;
  app_version : option string;
  device_id : option string
}.

Record Request : Type := mkRequest {
  method : string;
  body : option Body     (* [None]: [req.body] is undefined *)
}.

Record Order : Type := mkOrder {
  order_product_id : string;
  order_user_id : string;
  timestamp : Z
}.

Record ValidationResult : Type := mkResult {
  success : bool;
  message : string;
  validated_product_id : string;
  is_duplicate : bool;
  server_time : Z
}.

Record Response : Type := mkResponse {
  statusCode : Z;
  headers : list (string * string);
  json : option (gmap string jsval)   (* [None]: [end()] without a body *)
}.

(** Outcome of [axios.post]: the promise resolves with [response.data]
    (absent, or an object with optional [ret] and [msg]), or rejects. *)
Record RemoteData : Type := mkData {
  ret : option Z;
  msg : option string
}.

Record AxiosError : Type := mkError {
  code : option string;
  response_status : option Z;   (* [error.response.status] when [error.response] is set *)
  error_message : string
}.

Inductive AxiosOutcome : Type :=
  | Resolved (data : option RemoteData)
  | Rejected (error : AxiosError).

Record Env : Type := mkEnv {
  APP_ID : string;              (* PICO_CONFIG.APP_ID *)
  now_start : Z;                (* line 33 *)
  now_request_id : Z;           (* line 236 *)
  random_suffix : string;       (* Math.random().toString(36).substr(2, 9) *)
  now_sign : Z;                 (* line 219 *)
  remote : AxiosOutcome;        (* line 120 *)
  now_server_time : Z;          (* the [new Date()] of the response being built *)
  now_insert : Z;               (* line 78 *)
  now_sweep : Z;                (* line 224 *)
  now_end : Z;                  (* line 84 *)
  body_type_error : string;     (* message of the TypeError thrown at line 39 *)
  unsafe_ret_text : string      (* what `${ret}` prints at line 141 when [ret] is
                                   not a safe integer, e.g. 1e+21 *)
}.

Definition VALIDATION_URL : string :=
  "https://open-api.pico.cn/platform/serverapi/purchase/check".

(** ** The world: cache and trace *)

Inductive Event : Type :=
  | EvCacheHas (key : string)
  | EvCacheSet (key : string) (order : Order)
  | EvCacheSweep (now : Z)
  | EvValidatePico (productId purchaseToken userId requestId : string)
  | EvAxiosPost (url : string) (data : gmap string string) (timeout : Z)
  | EvValidateSimulated (productId purchaseToken userId : string)
  | EvSetTimeout (ms : Z).

Record World : Type := mkWorld {
  orderCache : gmap string Order;
  trace : list Event
}.

Definition M (A : Type) : Type := World → A * World.

#[global] Instance M_ret : MRet M := λ A (a : A) w, (a, w).
#[global] Instance M_bind : MBind M :=
  λ A B (f : A → M B) (m : M A) w, let (a, w') := m w in f a w'.

Definition emit (e : Event) : M unit :=
  λ w, (tt, mkWorld (orderCache w) (trace w ++ [e])).

Definition cache_has (key : string) : M bool :=
  λ w, (bool_decide (is_Some (orderCache w !! key)),
        mkWorld (orderCache w) (trace w ++ [EvCacheHas key])).

Definition cache_set (key : string) (order : Order) : M unit :=
  λ w, (tt, mkWorld (<[key := order]> (orderCache w))
                    (trace w ++ [EvCacheSet key order])).

(** ** generateRequestId *)

Definition generateRequestId (e : Env) : string :=
  "req_" +:+ pretty (now_request_id e) +:+ "_" +:+ random_suffix e.

(** ** generatePicoSignature *)

Definition key_le (a b : string) : Prop := Is_true (String.leb a b).

#[global] Instance key_le_dec a b : Decision (key_le a b).
Proof. unfold key_le. apply _. Defined.

(** The canonical string built (and then dropped) by the stub: the keys other
    than [sign] in sorted order, as [key=value&] items, last [&] removed. *)
Definition signString (data : gmap string string) : string :=
  let sortedKeys := merge_sort key_le (map fst (map_to_list data)) in
  slice_0_m1
    (foldl (λ acc key,
              if String.eqb key "sign" then acc
              else acc +:+ key +:+ "=" +:+ default "undefined" (data !! key) +:+ "&")
           "" sortedKeys).

Definition generatePicoSignature (data : gmap string string) (now : Z) : string :=
  let _canonical := signString data in
  "demo_signature_" +:+ pretty now.

(** ** cleanupOldOrders *)

Definition twentyFourHours : Z := 24 * 60 * 60 * 1000.

(** One turn of the [for ... of orderCache.entries()] loop. *)
Definition sweep_entry (now : Z) (cache : gmap string Order)
    (kv : string * Order) : gmap string Order :=
  if bool_decide (now - timestamp kv.2 > twentyFourHours)%Z
  then delete kv.1 cache else cache.

Definition cleanupOldOrders (now : Z) (cache : gmap string Order)
    : gmap string Order :=
  foldl (sweep_entry now) cache (map_to_list cache).

Definition cache_sweep (now : Z) : M unit :=
  λ w, (tt, mkWorld (cleanupOldOrders now (orderCache w))
                    (trace w ++ [EvCacheSweep now])).

(** ** validatePicoPurchase *)

Definition ECONNABORTED : string := "ECONNABORTED".

(** [response.data && response.data.ret === 0] *)
Definition remote_ok (data : option RemoteData) : bool :=
  match data with
  | Some d => bool_decide (ret d = Some 0%Z)
  | None => false
  end.

(** Number.MAX_SAFE_INTEGER, 2^53 - 1. *)
Definition MAX_SAFE_INTEGER : Z := 9007199254740991.

(** [`${ret}`] for an integer return code.  A safe integer prints as its
    decimal digits.  Outside that range JavaScript prints the shortest
    digits that identify the double, in exponent form from 1e21 on; that
    text is not computed here but read from the environment. *)
Definition Number_toString (e : Env) (z : Z) : string :=
  if bool_decide (- MAX_SAFE_INTEGER ≤ z ≤ MAX_SAFE_INTEGER)%Z
  then pretty z else unsafe_ret_text e.

(** [response.data?.msg || `错误码: ${response.data?.ret}`] *)
Definition remote_reason (e : Env) (data : option RemoteData) : string :=
  match truthy (data ≫= msg) with
  | Some m => m
  | None =>
      "错误码: " +:+ from_option (Number_toString e) "undefined" (data ≫= ret)
  end.

Definition pico_error_message (error : AxiosError) : string :=
  if bool_decide (code error = Some ECONNABORTED) then "验证请求超时"
  else match response_status error with
       | Some status => "PICO服务器错误: " +:+ pretty status
       | None => "支付验证服务暂时不可用"
       end.

Definition validatePicoPurchase (e : Env)
    (productId purchaseToken userId requestId : string) : M ValidationResult :=
  _ ← emit (EvValidatePico productId purchaseToken userId requestId);
  let requestData : gmap string string :=
    <["purchase_token" := purchaseToken]>
      (<["product_id" := productId]>
         (<["user_id" := userId]> {["app_id" := APP_ID e]})) in
  let requestData :=
    <["sign" := generatePicoSignature requestData (now_sign e)]> requestData in
  _ ← emit (EvAxiosPost VALIDATION_URL requestData 8000);
  match remote e with
  | Resolved data =>
      if remote_ok data then
        mret (mkResult true "PICO支付验证成功" productId false (now_server_time e))
      else
        mret (mkResult false ("PICO验证失败: " +:+ remote_reason e data)
                       productId false (now_server_time e))
  | Rejected error =>
      mret (mkResult false (pico_error_message error)
                     productId false (now_server_time e))
  end.

(** ** validateSimulatedPurchase *)

Definition validateSimulatedPurchase (e : Env)
    (productId purchaseToken userId : string) : M ValidationResult :=
  _ ← emit (EvValidateSimulated productId purchaseToken userId);
  _ ← emit (EvSetTimeout 300);
  let isValid := startsWith purchaseToken "simulated_purchase_token_"
                 || startsWith purchaseToken "test_" in
  if isValid then
    mret (mkResult true "模拟支付验证成功" productId false (now_server_time e))
  else
    mret (mkResult false "模拟支付验证失败：无效的支付令牌"
                   productId false (now_server_time e)).

(** ** handler *)

Definition cors_headers : list (string * string) :=
  [ ("Access-Control-Allow-Origin", "*");
    ("Access-Control-Allow-Methods", "POST, OPTIONS");
    ("Access-Control-Allow-Headers", "Content-Type, X-App-Version, X-Platform") ].

(** [res.status(code).json(obj)]; a bare [res.json(obj)] answers with 200. *)
Definition res_json (status : Z) (obj : gmap string jsval) : Response :=
  mkResponse status cors_headers (Some obj).

(** [res.status(code).end()] *)
Definition res_end (status : Z) : Response :=
  mkResponse status cors_headers None.

(** The fields of a validation result, as spread into the response. *)
Definition result_fields (r : ValidationResult) : gmap string jsval :=
  <["server_time" := JDate (server_time r)]>
    (<["is_duplicate" := JBool (is_duplicate r)]>
       (<["validated_product_id" := JStr (validated_product_id r)]>
          (<["message" := JStr (message r)]>
             {["success" := JBool (success r)]}))).

Definition missing_parameters_body (requestId : string) : gmap string jsval :=
  <["request_id" := JStr requestId]>
    (<["message" := JStr "缺少必要参数: product_id, purchase_token, user_id"]>
       {["success" := JBool false]}).

Definition duplicate_body (e : Env) (productId requestId : string)
    : gmap string jsval :=
  <["server_time" := JDate (now_server_time e)]>
    (<["request_id" := JStr requestId]>
       (<["is_duplicate" := JBool true]>
          (<["validated_product_id" := JStr productId]>
             (<["message" := JStr "重复订单（已处理过）"]>
                {["success" := JBool true]})))).

Definition server_error_body (e : Env) (error requestId : string)
    : gmap string jsval :=
  <["server_time" := JDate (now_server_time e)]>
    (<["request_id" := JStr requestId]>
       (<["message" := JStr ("服务器内部错误: " +:+ error)]>
          {["success" := JBool false]})).

Definition method_not_allowed_body (requestId : string) : gmap string jsval :=
  <["request_id" := JStr requestId]>
    (<["message" := JStr "Method not allowed"]>
       {["success" := JBool false]}).

(** The [try] block of the handler (lines 36-92).  [inl m] is an exception
    with message [m] reaching the [catch]; [inr r] is the response sent.
    Destructuring an undefined [req.body] throws (line 39).  The guard of
    line 42, [!product_id || !purchase_token || !user_id], is the last branch
    of the match on the three fields: it is taken unless all three are
    truthy. *)
Definition handler_try (e : Env) (req : Request) (startTime : Z)
    (requestId : string) : M (string + Response) :=
  match body req with
  | None => mret (inl (body_type_error e))
  | Some b =>
    let platform := default "pico" (platform b) in
    match truthy (product_id b), truthy (purchase_token b), truthy (user_id b) with
    | Some product_id, Some purchase_token, Some user_id =>
      let orderKey := user_id +:+ "_" +:+ purchase_token in
      seen ← cache_has orderKey;
      if seen : bool then
        mret (inr (res_json 200 (duplicate_body e product_id requestId)))
      else
        validationResult ←
          (if String.eqb platform "pico"
           then validatePicoPurchase e product_id purchase_token user_id requestId
           else validateSimulatedPurchase e product_id purchase_token user_id);
        _ ← (if success validationResult && negb (is_duplicate validationResult)
             then _ ← cache_set orderKey
                        (mkOrder product_id user_id (now_insert e));
                  cache_sweep (now_sweep e)
             else mret tt);
        let processingTime := (now_end e - startTime)%Z in
        mret (inr (res_json 200
                     (<["processing_time" := JNum processingTime]>
                        (<["request_id" := JStr requestId]>
                           (result_fields validationResult)))))
    | _, _, _ =>
      mret (inr (res_json 200 (missing_parameters_body requestId)))
    end
  end.

Definition handler (e : Env) (req : Request) : M Response :=
  if String.eqb (method req) "OPTIONS" then mret (res_end 200)
  else if negb (String.eqb (method req) "POST") then
    mret (res_json 405 (method_not_allowed_body (generateRequestId e)))
  else
    let startTime := now_start e in
    let requestId := generateRequestId e in
    outcome ← handler_try e req startTime requestId;
    match outcome with
    | inr response => mret response
    | inl error =>
        mret (res_json 200 (server_error_body e error requestId))
    end.

(** * Vocabulary of the properties *)

(** ** Reading responses and traces *)

(** The value of field [k] of the JSON body of a response, if any. *)
Definition field (r : Response) (k : string) : option jsval :=
  json r ≫= (.!! k).

Definition is_live_call (ev : Event) : bool :=
  match ev with EvValidatePico _ _ _ _ | EvAxiosPost _ _ _ => true | _ => false end.

Definition is_simulated_call (ev : Event) : bool :=
  match ev with EvValidateSimulated _ _ _ | EvSetTimeout _ => true | _ => false end.

Definition is_cache_event (ev : Event) : bool :=
  match ev with EvCacheHas _ | EvCacheSet _ _ | EvCacheSweep _ => true | _ => false end.

Definition orderKey (user_id purchase_token : string) : string :=
  user_id +:+ "_" +:+ purchase_token.

Definition POST (b : Body) : Request := mkRequest "POST" (Some b).

(** [sub] occurs in [s]. *)
Definition contains (s sub : string) : Prop :=
  ∃ before after, s = before +:+ sub +:+ after.

(** The validator the handler selects at lines 67-71. *)
Definition dispatch (e : Env) (b : Body) (p t u : string) : M ValidationResult :=
  if String.eqb (default "pico" (platform b)) "pico"
  then validatePicoPurchase e p t u (generateRequestId e)
  else validateSimulatedPurchase e p t u.

(** The bookkeeping of lines 74-82. *)
Definition record_order (e : Env) (p t u : string) (r : ValidationResult) : M unit :=
  if success r && negb (is_duplicate r)
  then _ ← cache_set (orderKey u t) (mkOrder p u (now_insert e));
       cache_sweep (now_sweep e)
  else mret tt.

Definition validated_body (e : Env) (r : ValidationResult) : gmap string jsval :=
  <["processing_time" := JNum (now_end e - now_start e)]>
    (<["request_id" := JStr (generateRequestId e)]> (result_fields r)).

(** ** Concrete inputs used in examples *)

Definition env_ok : Env :=
  mkEnv "your_pico_app_id" 1700000000000 1700000000001 "k3x9q2m7a"
        1700000000002 (Resolved (Some (mkData (Some 0%Z) None)))
        1700000000310 1700000000311 1700000000312 1700000000313
        "Cannot destructure property 'product_id' of 'req.body' as it is undefined."
        "1e+21".

Definition world0 : World := mkWorld ∅ [].

Definition body_of (p t u : string) (pl : option string) : Body :=
  mkBody (Some p) (Some t) (Some u) pl None None.

(** The body [b] with its [platform] field set to [pl]. *)
Definition with_platform (b : Body) (pl : string) : Body :=
  mkBody (product_id b) (purchase_token b) (user_id b) (Some pl)
         (app_version b) (device_id b).

Definition env_remote (o : AxiosOutcome) : Env :=
  mkEnv (APP_ID env_ok) (now_start env_ok) (now_request_id env_ok)
        (random_suffix env_ok) (now_sign env_ok) o (now_server_time env_ok)
        (now_insert env_ok) (now_sweep env_ok) (now_end env_ok)
        (body_type_error env_ok) (unsafe_ret_text env_ok).

(** A request lacks a required field when it has no body at all or when one
    of the three fields is absent from the body. *)
Definition lacks_required_field (req : Request) : Prop :=
  match body req with
  | None => True
  | Some b => product_id b = None ∨ purchase_token b = None ∨ user_id b = None
  end.

(** A field that is present but empty, turned into an absent field. *)
Definition remove_if_empty (x : option string) : option string :=
  if bool_decide (x = Some "") then None else x.

Definition without_empty_fields (b : Body) : Body :=
  mkBody (remove_if_empty (product_id b)) (remove_if_empty (purchase_token b))
         (remove_if_empty (user_id b)) (platform b) (app_version b) (device_id b).

(** The request gets past the method check, the parameter check and the
    duplicate check, so that a validator is called. *)
Definition reaches_validator (req : Request) (w : World) : bool :=
  String.eqb (method req) "POST" &&
  match body req with
  | Some b =>
      match truthy (product_id b), truthy (purchase_token b), truthy (user_id b) with
      | Some _, Some t, Some u =>
          negb (bool_decide (is_Some (orderCache w !! orderKey u t)))
      | _, _, _ => false
      end
  | None => false
  end.

(** The worlds reachable from the empty cache by handling requests, with
    the history of the calls made: environment, request and response. *)
Inductive run : World → list (Env * Request * Response) → Prop :=
  | run_start : run world0 []
  | run_call w h e req :
      run w h →
      run (handler e req w).2 (h ++ [(e, req, (handler e req w).1)]).

(** ** Vocabulary of the further properties *)

(** An entry that the sweep at instant [now] keeps: its age is at most 24
    hours. *)
Definition recent (now : Z) (kv : string * Order) : Prop :=
  (now - timestamp kv.2 ≤ twentyFourHours)%Z.

#[global] Instance recent_dec now kv : Decision (recent now kv).
Proof. unfold recent. apply _. Defined.

(** The character [c] occurs in [s]. *)
Fixpoint occurs (c : Ascii.ascii) (s : string) : bool :=
  match s with
  | EmptyString => false
  | String d s' => if Ascii.eqb c d then true else occurs c s'
  end.

(** The separator character of request identifiers and dedup keys. *)
Definition underscore : Ascii.ascii :=
  match "_" with String c _ => c | EmptyString => Ascii.zero end.

(** The object built at lines 108-113, before it is signed. *)
Definition unsigned_request (app_id userId productId purchaseToken : string)
    : gmap string string :=
  <["purchase_token" := purchaseToken]>
    (<["product_id" := productId]>
       (<["user_id" := userId]> {["app_id" := app_id]})).

(** The handler from line 73 on: what a call does when it resumes, with the
    validation result [r], after awaiting its validator (lines 68 and 70).
    Code between two awaits runs without interruption, but while a call
    awaits, other calls may run: the world in which a call resumes need not
    be the one its duplicate check saw. *)
Definition handler_resume (e : Env) (p t u : string) (r : ValidationResult)
    : M Response :=
  _ ← record_order e p t u r;
  mret (res_json 200 (validated_body e r)).

(** Two bodies that agree on the fields the handler reads. *)
Definition same_read_fields (b b' : Body) : Prop :=
  product_id b = product_id b' ∧ purchase_token b = purchase_token b'
  ∧ user_id b = user_id b' ∧ platform b = platform b'.

(** * Properties *)

Ltac unfold_M := unfold mbind, M_bind, mret, M_ret in *.

(** Lookup of a constant key in a response body written as a chain of
    inserts. *)
Ltac body_field := unfold field; simpl; by simplify_map_eq.

(** ** Strings *)

Lemma append_String c (s r : string) : String c s +:+ r = String c (s +:+ r).
Proof. reflexivity. Qed.

Lemma append_nil_r (s : string) : s +:+ "" = s.
Proof. induction s as [|c s IH]; [done|]. by rewrite append_String, IH. Qed.

Lemma append_assoc (a b c : string) : a +:+ b +:+ c = (a +:+ b) +:+ c.
Proof. induction a as [|x a IH]; [done|]. by rewrite !append_String, IH. Qed.

Lemma contains_suffix (prefix s : string) : contains (prefix +:+ s) s.
Proof. exists prefix, "". by rewrite append_nil_r. Qed.

Lemma startsWith_spec (s p : string) :
  startsWith s p = true ↔ ∃ rest, s = p +:+ rest.
Proof.
  unfold startsWith. revert s.
  induction p as [|c p IH]; intros s.
  - split; [intros _; by exists s | by destruct s].
  - destruct s as [|d s]; simpl.
    + split; [done | intros [rest Hr]; discriminate].
    + setoid_rewrite append_String.
      destruct (Ascii.ascii_dec c d) as [->|Hne].
      * rewrite IH. split; intros [rest Hr]; exists rest; congruence.
      * split; [done | intros [rest Hr]; congruence].
Qed.

(** A field is truthy exactly when it is present and not the empty string. *)
Lemma truthy_Some (x : option string) (s : string) :
  truthy x = Some s ↔ x = Some s ∧ s ≠ "".
Proof.
  destruct x as [s'|]; simpl; [|intuition congruence].
  destruct (String.eqb_spec s' ""); intuition congruence.
Qed.

Lemma truthy_None (x : option string) :
  truthy x = None ↔ x = None ∨ x = Some "".
Proof.
  destruct x as [s'|]; simpl; [|intuition congruence].
  destruct (String.eqb_spec s' ""); intuition congruence.
Qed.

Lemma truthy_remove_if_empty (x : option string) :
  truthy (remove_if_empty x) = truthy x.
Proof. unfold remove_if_empty. case_bool_decide as H; [by rewrite H|done]. Qed.

(** ** The sweep *)

(** The loop keeps an entry of the map it started from exactly when no
    visited entry with the same key is older than 24 hours. *)
Lemma sweep_foldl_lookup now (l : list (string * Order))
    (m : gmap string Order) k o :
  foldl (sweep_entry now) m l !! k = Some o ↔
  m !! k = Some o ∧
  ¬ ∃ o', (k, o') ∈ l ∧ (now - timestamp o' > twentyFourHours)%Z.
Proof.
  revert m. induction l as [|[k' o'] l IH]; intros m; simpl.
  - split; [intros H; split; [done|] | by intros [H _]].
    intros (? & Hin & _). by apply elem_of_nil in Hin.
  - rewrite IH. unfold sweep_entry; simpl. case_bool_decide as Hexp.
    + split.
      * intros [Hk Hnot]. apply lookup_delete_Some in Hk as [Hne Hk].
        split; [done|]. intros (o2 & Hin & Ho2).
        apply elem_of_cons in Hin as [Heq|Hin]; [congruence|].
        apply Hnot. eauto.
      * intros [Hk Hnot]. split.
        -- apply lookup_delete_Some. split; [|done].
           intros ->. apply Hnot. exists o'. split; [left|done].
        -- intros (o2 & Hin & Ho2). apply Hnot. exists o2.
           split; [by right|done].
    + split; intros [Hk Hnot]; (split; [done|]); intros (o2 & Hin & Ho2).
      * apply elem_of_cons in Hin as [Heq|Hin]; [congruence|].
        apply Hnot. eauto.
      * apply Hnot. exists o2. split; [by right|done].
Qed.

Lemma cleanupOldOrders_lookup_Some now (cache : gmap string Order) k o :
  cleanupOldOrders now cache !! k = Some o ↔
  cache !! k = Some o ∧ ¬ (now - timestamp o > twentyFourHours)%Z.
Proof.
  unfold cleanupOldOrders. rewrite sweep_foldl_lookup. split.
  - intros [Hk Hnot]. split; [done|]. intros Hexp. apply Hnot.
    exists o. split; [by apply elem_of_map_to_list|done].
  - intros [Hk Hnot]. split; [done|]. intros (o' & Hin & Hexp).
    apply elem_of_map_to_list in Hin. congruence.
Qed.

Lemma cleanupOldOrders_expired now (cache : gmap string Order) k o :
  cache !! k = Some o → (now - timestamp o > twentyFourHours)%Z →
  cleanupOldOrders now cache !! k = None.
Proof.
  intros Hk Hexp. apply eq_None_not_Some. intros [o' Ho'].
  apply cleanupOldOrders_lookup_Some in Ho' as [Hk' Hnot]. congruence.
Qed.

Lemma cleanupOldOrders_kept now (cache : gmap string Order) k o :
  cache !! k = Some o → (now - timestamp o ≤ twentyFourHours)%Z →
  cleanupOldOrders now cache !! k = Some o.
Proof.
  intros Hk Hle. apply cleanupOldOrders_lookup_Some. split; [done|lia].
Qed.

(** ** Response bodies *)

Lemma field_validated_body e r status :
  field (res_json status (validated_body e r)) "success" = Some (JBool (success r))
  ∧ field (res_json status (validated_body e r)) "is_duplicate"
      = Some (JBool (is_duplicate r))
  ∧ field (res_json status (validated_body e r)) "validated_product_id"
      = Some (JStr (validated_product_id r))
  ∧ field (res_json status (validated_body e r)) "request_id"
      = Some (JStr (generateRequestId e))
  ∧ field (res_json status (validated_body e r)) "processing_time"
      = Some (JNum (now_end e - now_start e)).
Proof. unfold validated_body, result_fields. repeat split; body_field. Qed.

Lemma field_duplicate_body e p rid status :
  field (res_json status (duplicate_body e p rid)) "success" = Some (JBool true)
  ∧ field (res_json status (duplicate_body e p rid)) "is_duplicate"
      = Some (JBool true)
  ∧ field (res_json status (duplicate_body e p rid)) "validated_product_id"
      = Some (JStr p)
  ∧ field (res_json status (duplicate_body e p rid)) "request_id" = Some (JStr rid)
  ∧ field (res_json status (duplicate_body e p rid)) "processing_time" = None.
Proof. unfold duplicate_body. repeat split; body_field. Qed.

Lemma field_missing_parameters_body rid status :
  field (res_json status (missing_parameters_body rid)) "success"
    = Some (JBool false)
  ∧ field (res_json status (missing_parameters_body rid)) "request_id"
      = Some (JStr rid)
  ∧ field (res_json status (missing_parameters_body rid)) "processing_time" = None.
Proof. unfold missing_parameters_body. repeat split; body_field. Qed.

Lemma field_server_error_body e error rid status :
  field (res_json status (server_error_body e error rid)) "success"
    = Some (JBool false)
  ∧ field (res_json status (server_error_body e error rid)) "request_id"
      = Some (JStr rid)
  ∧ field (res_json status (server_error_body e error rid)) "processing_time"
      = None.
Proof. unfold server_error_body. repeat split; body_field. Qed.

Lemma field_method_not_allowed_body rid status :
  field (res_json status (method_not_allowed_body rid)) "success"
    = Some (JBool false)
  ∧ field (res_json status (method_not_allowed_body rid)) "request_id"
      = Some (JStr rid)
  ∧ field (res_json status (method_not_allowed_body rid)) "processing_time"
      = None.
Proof. unfold method_not_allowed_body. repeat split; body_field. Qed.

(** ** The validators *)

(** C4.  The simulated validator approves a token exactly when it starts
    with ["test_"] or ["simulated_purchase_token_"]: such a token gives
    [success = true] and [is_duplicate = false]; any other token gives
    [success = false] with the fixed invalid-token message; and the result
    always echoes the product id of the request. *)
Theorem simulated_validator_prefixes (e : Env) (p t u : string) (w : World) :
  let r := (validateSimulatedPurchase e p t u w).1 in
  let marked := (∃ rest, t = "test_" +:+ rest)
                ∨ (∃ rest, t = "simulated_purchase_token_" +:+ rest) in
  (marked → success r = true ∧ is_duplicate r = false)
  ∧ (¬ marked → success r = false
                ∧ message r = "模拟支付验证失败：无效的支付令牌")
  ∧ (success r = true ↔ marked)
  ∧ validated_product_id r = p.
Proof.
  intros r marked. subst r.
  unfold validateSimulatedPurchase, emit. unfold_M. simpl.
  assert (Hiff : startsWith t "simulated_purchase_token_" || startsWith t "test_"
                 = true ↔ marked).
  { rewrite orb_true_iff, !startsWith_spec. unfold marked. tauto. }
  destruct (_ || _); simpl.
  - assert marked by (by apply Hiff). repeat split; tauto.
  - assert (¬ marked) by (intros Hm; apply Hiff in Hm; discriminate).
    repeat split; try tauto; discriminate.
Qed.

Lemma simulated_validator_prefixes_witness :
  success (validateSimulatedPurchase env_ok "p1" "test_abc" "u1" world0).1 = true
  ∧ success (validateSimulatedPurchase env_ok "p1" "abc_test_" "u1" world0).1
      = false.
Proof.
  split.
  - apply (simulated_validator_prefixes env_ok "p1" "test_abc" "u1" world0).
    left. by exists "abc".
  - apply (simulated_validator_prefixes env_ok "p1" "abc_test_" "u1" world0).
    intros [[rest H]|[rest H]]; discriminate H.
Defined.

(** C5.  The live validator reads the remote outcome as follows: a response
    whose [ret] is 0 gives [success = true] and [is_duplicate = false]; a
    response with any other [ret] (or none) gives [success = false] and a
    message that contains the remote [msg] when there is one, and the return
    code otherwise, as JavaScript prints it: its decimal digits when it is a
    safe integer; a rejected request whose error code is [ECONNABORTED]
    (timeout) gives [success = false] with the timeout message. *)
Theorem live_validator_outcomes (e : Env) (p t u rid : string) (w : World) :
  let r := (validatePicoPurchase e p t u rid w).1 in
  (∀ data, remote e = Resolved data → data ≫= ret = Some 0%Z →
     success r = true ∧ is_duplicate r = false ∧ validated_product_id r = p)
  ∧ (∀ data, remote e = Resolved data → data ≫= ret ≠ Some 0%Z →
     success r = false
     ∧ (∀ m, truthy (data ≫= msg) = Some m → contains (message r) m)
     ∧ (∀ z, truthy (data ≫= msg) = None → data ≫= ret = Some z →
          contains (message r) (Number_toString e z)
          ∧ ((- MAX_SAFE_INTEGER ≤ z ≤ MAX_SAFE_INTEGER)%Z →
             contains (message r) (pretty z))))
  ∧ (∀ error, remote e = Rejected error → code error = Some ECONNABORTED →
     success r = false ∧ message r = "验证请求超时").
Proof.
  intros r. subst r. unfold validatePicoPurchase, emit.
  unfold mbind at 1 2, mret, M_bind, M_ret. simpl.
  split; [|split].
  - intros data -> Hret. destruct data as [d|]; [|done]. simpl in *.
    by rewrite bool_decide_eq_true_2.
  - intros data -> Hret.
    assert (remote_ok data = false) as ->.
    { destruct data as [d|]; [|done]. simpl in *.
      by rewrite bool_decide_eq_false_2. }
    simpl. split; [done|]. unfold remote_reason. split.
    + intros m ->. apply contains_suffix.
    + intros z -> ->. simpl. rewrite append_assoc.
      split; [apply contains_suffix|]. intros Hsafe.
      unfold Number_toString. rewrite bool_decide_eq_true_2 by done.
      apply contains_suffix.
  - intros error -> Hcode. simpl. unfold pico_error_message.
    by rewrite bool_decide_eq_true_2.
Qed.

Lemma live_validator_outcomes_witness :
  success (validatePicoPurchase
             (env_remote (Resolved (Some (mkData (Some 0%Z) None))))
             "p1" "tok" "u1" "req_1" world0).1 = true
  ∧ contains
      (message (validatePicoPurchase
                  (env_remote (Resolved (Some (mkData (Some 7%Z) (Some "expired")))))
                  "p1" "tok" "u1" "req_1" world0).1)
      "expired"
  ∧ contains
      (message (validatePicoPurchase
                  (env_remote (Resolved (Some (mkData (Some 7%Z) None))))
                  "p1" "tok" "u1" "req_1" world0).1)
      "7"
  ∧ message (validatePicoPurchase
               (env_remote (Rejected (mkError (Some "ECONNABORTED") None
                                              "timeout of 8000ms exceeded")))
               "p1" "tok" "u1" "req_1" world0).1 = "验证请求超时".
Proof.
  split; [|split; [|split]].
  - eapply (live_validator_outcomes
              (env_remote (Resolved (Some (mkData (Some 0%Z) None)))));
      reflexivity.
  - eapply (live_validator_outcomes
              (env_remote (Resolved (Some (mkData (Some 7%Z) (Some "expired"))))));
      [reflexivity | discriminate | reflexivity].
  - destruct (live_validator_outcomes
                (env_remote (Resolved (Some (mkData (Some 7%Z) None))))
                "p1" "tok" "u1" "req_1" world0) as (_ & Hother & _).
    destruct (Hother _ eq_refl) as (_ & _ & Hcode); [discriminate|].
    destruct (Hcode 7%Z eq_refl eq_refl) as [_ Hsafe].
    apply Hsafe. unfold MAX_SAFE_INTEGER. lia.
  - eapply (live_validator_outcomes
              (env_remote (Rejected (mkError (Some "ECONNABORTED") None
                                             "timeout of 8000ms exceeded"))));
      reflexivity.
Defined.

(** A return code beyond the safe integers is printed as the runtime prints
    it, here in exponent form. *)
Lemma large_ret_is_printed_by_the_runtime :
  message (validatePicoPurchase
             (env_remote (Resolved (Some (mkData (Some (10 ^ 21)%Z) None))))
             "p1" "tok" "u1" "req_1" world0).1
    = "PICO验证失败: 错误码: 1e+21".
Proof. by vm_compute. Qed.

(** C10.  The signature stub ignores its argument: for any two request
    objects signed at the same instant the signatures are equal, namely the
    placeholder prefix followed by the clock reading; hence the [sign] field
    of the outbound request depends only on that reading, not on the product,
    token or user being verified. *)
Theorem signature_ignores_data (d1 d2 : gmap string string) (now : Z)
    (e : Env) (p t u rid : string) (w : World) :
  generatePicoSignature d1 now = generatePicoSignature d2 now
  ∧ generatePicoSignature d1 now = "demo_signature_" +:+ pretty now
  ∧ ∃ data,
      last (trace (validatePicoPurchase e p t u rid w).2)
        = Some (EvAxiosPost VALIDATION_URL data 8000)
      ∧ data !! "sign" = Some ("demo_signature_" +:+ pretty (now_sign e)).
Proof.
  split; [done|]. split; [done|].
  unfold validatePicoPurchase, emit. unfold_M. simpl.
  destruct (remote e) as [data|err]; [destruct (remote_ok data)|]; simpl;
    rewrite <- !(assoc_L (++)), last_app; simpl;
    (eexists; split; [reflexivity|]); by rewrite lookup_insert_eq.
Qed.

(** Both validators leave the cache alone, only append to the trace, echo
    the product id and never report a duplicate. *)
Lemma dispatch_frame e b p t u w :
  ∃ r evs,
    dispatch e b p t u w = (r, mkWorld (orderCache w) (trace w ++ evs))
    ∧ validated_product_id r = p ∧ is_duplicate r = false
    ∧ forallb (λ ev, negb (is_cache_event ev)) evs = true.
Proof.
  unfold dispatch. destruct (String.eqb _ _).
  - unfold validatePicoPurchase, emit. unfold_M. simpl.
    destruct (remote e) as [data|err]; [destruct (remote_ok data)|];
      eexists _, [_; _]; rewrite <- !(assoc_L (++)); simpl; eauto.
  - unfold validateSimulatedPurchase, emit. unfold_M. simpl.
    destruct (_ || _); eexists _, [_; _];
      rewrite <- !(assoc_L (++)); simpl; eauto.
Qed.

(** ** Requests that carry the three required fields *)

Section RequiredFields.
  Context (b : Body) (p t u : string).
  Hypothesis Hp : truthy (product_id b) = Some p.
  Hypothesis Ht : truthy (purchase_token b) = Some t.
  Hypothesis Hu : truthy (user_id b) = Some u.

(** The handler on such a request: the duplicate check, then either the
    duplicate answer or validation, bookkeeping and the final answer. *)
Lemma handler_required_fields e w :
  handler e (POST b) w =
    let w1 := mkWorld (orderCache w) (trace w ++ [EvCacheHas (orderKey u t)]) in
    if bool_decide (is_Some (orderCache w !! orderKey u t)) then
      (res_json 200 (duplicate_body e p (generateRequestId e)), w1)
    else
      let (r, w2) := dispatch e b p t u w1 in
      let (_, w3) := record_order e p t u r w2 in
      (res_json 200 (validated_body e r), w3).
Proof.
  unfold handler, POST, handler_try; simpl.
  rewrite Hp, Ht, Hu. unfold_M. unfold cache_has, orderKey; simpl.
  case_bool_decide; [done|].
  unfold dispatch, record_order, validated_body. unfold_M.
  destruct (if String.eqb _ _ then _ else _) as [r w2]; simpl.
  by destruct (success r && negb (is_duplicate r)).
Qed.

(** After a call that answered [success = true], the key of the request is in
    the cache, provided the clock moved by at most 24 hours between the
    insert (line 78) and the sweep (line 224) of that call. *)
Lemma success_records_key e w :
  field (handler e (POST b) w).1 "success" = Some (JBool true) →
  (now_sweep e - now_insert e ≤ twentyFourHours)%Z →
  is_Some (orderCache (handler e (POST b) w).2 !! orderKey u t)
  ∧ field (handler e (POST b) w).1 "validated_product_id" = Some (JStr p).
Proof.
  rewrite handler_required_fields. simpl.
  case_bool_decide as Hseen; simpl.
  - intros _ _. split; [done|]. apply field_duplicate_body.
  - destruct (dispatch_frame e b p t u
                (mkWorld (orderCache w) (trace w ++ [EvCacheHas (orderKey u t)])))
      as (r & evs & -> & Hprod & Hdup & _).
    unfold record_order. rewrite Hdup.
    destruct (success r) eqn:Hsucc; simpl.
    + intros _ Hclock. split.
      * exists (mkOrder p u (now_insert e)).
        apply cleanupOldOrders_kept; [apply lookup_insert_eq | done].
      * rewrite <- Hprod. apply field_validated_body.
    + intros Hfield.
      destruct (field_validated_body e r 200) as [Hs _].
      rewrite Hs, Hsucc in Hfield. discriminate.
Qed.

(** C7.  When a call for a request carrying the three required fields
    records a new order (it answered [success = true],
    [is_duplicate = false]), the sweep that follows the insert leaves the
    cache as follows: every entry of the cache after the insert whose age at
    the sweep exceeds 24 hours is absent, and every entry younger than 24
    hours is still present with the same value. *)
Theorem sweep_after_insert (e : Env) (w : World) :
  field (handler e (POST b) w).1 "success" = Some (JBool true) →
  field (handler e (POST b) w).1 "is_duplicate" = Some (JBool false) →
  let inserted :=
    <[orderKey u t := mkOrder p u (now_insert e)]> (orderCache w) in
  let swept := orderCache (handler e (POST b) w).2 in
  swept = cleanupOldOrders (now_sweep e) inserted
  ∧ ∀ k o, inserted !! k = Some o →
      ((now_sweep e - timestamp o > twentyFourHours)%Z → swept !! k = None)
      ∧ ((now_sweep e - timestamp o < twentyFourHours)%Z → swept !! k = Some o).
Proof.
  rewrite handler_required_fields.
  simpl. case_bool_decide as Hseen; simpl.
  - intros _ Hdup.
    destruct (field_duplicate_body e p (generateRequestId e) 200)
      as (_ & Hd & _).
    rewrite Hd in Hdup. discriminate.
  - destruct (dispatch_frame e b p t u
                (mkWorld (orderCache w) (trace w ++ [EvCacheHas (orderKey u t)])))
      as (r & evs & -> & _ & Hdup & _).
    unfold record_order. rewrite Hdup.
    destruct (success r) eqn:Hsucc; simpl.
    + intros _ _. split; [done|]. intros k o Hk. split; intros Hage.
      * by eapply cleanupOldOrders_expired.
      * apply cleanupOldOrders_kept; [done|lia].
    + intros Hfield.
      destruct (field_validated_body e r 200) as (Hs & _).
      rewrite Hs, Hsucc in Hfield. discriminate.
Qed.

(** C2, amended.  A POST request whose body omits [platform] is handled
    exactly as the same request with [platform = "pico"]; when the three
    required fields are present and the dedup key is not in the cache, the
    handler calls the live validator and performs the outbound request, and
    everything it does afterwards is cache bookkeeping: the simulated
    validator is not called. *)
Theorem omitted_platform_is_pico (e : Env) (w : World) :
  platform b = None →
  orderCache w !! orderKey u t = None →
  handler e (POST b) w = handler e (POST (with_platform b "pico")) w
  ∧ ∃ data rest,
      trace (handler e (POST b) w).2
        = trace w ++ [EvCacheHas (orderKey u t);
                      EvValidatePico p t u (generateRequestId e);
                      EvAxiosPost VALIDATION_URL data 8000] ++ rest
      ∧ forallb is_cache_event rest = true.
Proof.
  intros Hpl Hkey. split.
  - unfold handler, POST, handler_try, with_platform; simpl. by rewrite Hpl.
  - rewrite handler_required_fields. simpl.
    rewrite bool_decide_eq_false_2 by (rewrite Hkey; by intros [? ?]).
    unfold dispatch. rewrite Hpl. simpl.
    unfold validatePicoPurchase, record_order, emit, cache_set, cache_sweep.
    unfold_M. simpl.
    destruct (remote e) as [data|err]; [destruct (remote_ok data)|]; simpl;
      rewrite <- !(assoc_L (++)); simpl; eexists _, _; (split; [reflexivity|]);
      reflexivity.
Qed.

End RequiredFields.

(** C1, as stated, fails: the same (user_id, purchase_token) submitted
    again with another product_id is answered as a duplicate, but with the
    product id of the second request, not the one validated first. *)
Lemma repeated_pair_changes_product :
  let b1 := body_of "p1" "test_abc" "u1" (Some "simulated") in
  let b2 := body_of "p2" "test_abc" "u1" (Some "simulated") in
  let first := handler env_ok (POST b1) world0 in
  let second := handler env_ok (POST b2) first.2 in
  (user_id b2, purchase_token b2) = (user_id b1, purchase_token b1)
  ∧ field first.1 "success" = Some (JBool true)
  ∧ field first.1 "validated_product_id" = Some (JStr "p1")
  ∧ field second.1 "is_duplicate" = Some (JBool true)
  ∧ field second.1 "validated_product_id" = Some (JStr "p2")
  ∧ field second.1 "validated_product_id" ≠ field first.1 "validated_product_id".
Proof.
  intros b1 b2 first second. split; [reflexivity|].
  repeat (split; [by vm_compute|]). vm_compute. discriminate.
Qed.

(** C1, amended.  A POST request carrying the three required fields whose
    dedup key [user_id + "_" + purchase_token] is already in the cache is
    answered before any validator runs, with [success = true],
    [is_duplicate = true] and the product id of this request as
    [validated_product_id]: the only operation performed is the [has] lookup.
    In particular, when a first call for a pair answered [success = true], a
    second request for the same pair yields [is_duplicate = true] and echoes
    its own product id, so that [validated_product_id] is unchanged exactly
    when the second request carries the product id of the first (the entry
    just inserted survives the sweep of the first call as long as the clock
    moved by at most 24 hours between its insert and its sweep). *)
Theorem duplicate_short_circuit (e1 e2 : Env) (w : World) (b1 b2 : Body)
    (p1 p2 t u : string) :
  truthy (product_id b1) = Some p1 →
  truthy (purchase_token b1) = Some t →
  truthy (user_id b1) = Some u →
  truthy (product_id b2) = Some p2 →
  truthy (purchase_token b2) = Some t →
  truthy (user_id b2) = Some u →
  (is_Some (orderCache w !! orderKey u t) →
   statusCode (handler e2 (POST b2) w).1 = 200%Z
   ∧ field (handler e2 (POST b2) w).1 "success" = Some (JBool true)
   ∧ field (handler e2 (POST b2) w).1 "is_duplicate" = Some (JBool true)
   ∧ field (handler e2 (POST b2) w).1 "validated_product_id" = Some (JStr p2)
   ∧ orderCache (handler e2 (POST b2) w).2 = orderCache w
   ∧ trace (handler e2 (POST b2) w).2 = trace w ++ [EvCacheHas (orderKey u t)])
  ∧
  (field (handler e1 (POST b1) w).1 "success" = Some (JBool true) →
   (now_sweep e1 - now_insert e1 ≤ twentyFourHours)%Z →
   let w1 := (handler e1 (POST b1) w).2 in
   field (handler e2 (POST b2) w1).1 "success" = Some (JBool true)
   ∧ field (handler e2 (POST b2) w1).1 "is_duplicate" = Some (JBool true)
   ∧ field (handler e1 (POST b1) w).1 "validated_product_id" = Some (JStr p1)
   ∧ field (handler e2 (POST b2) w1).1 "validated_product_id" = Some (JStr p2)
   ∧ (field (handler e2 (POST b2) w1).1 "validated_product_id"
        = field (handler e1 (POST b1) w).1 "validated_product_id" ↔ p2 = p1)
   ∧ orderCache (handler e2 (POST b2) w1).2 = orderCache w1
   ∧ trace (handler e2 (POST b2) w1).2 = trace w1 ++ [EvCacheHas (orderKey u t)]).
Proof.
  intros Hp1 Ht1 Hu1 Hp2 Ht2 Hu2.
  assert (Hshort : ∀ w0, is_Some (orderCache w0 !! orderKey u t) →
    statusCode (handler e2 (POST b2) w0).1 = 200%Z
    ∧ field (handler e2 (POST b2) w0).1 "success" = Some (JBool true)
    ∧ field (handler e2 (POST b2) w0).1 "is_duplicate" = Some (JBool true)
    ∧ field (handler e2 (POST b2) w0).1 "validated_product_id" = Some (JStr p2)
    ∧ orderCache (handler e2 (POST b2) w0).2 = orderCache w0
    ∧ trace (handler e2 (POST b2) w0).2 = trace w0 ++ [EvCacheHas (orderKey u t)]).
  { intros w0 Hseen. rewrite (handler_required_fields b2 p2 t u Hp2 Ht2 Hu2).
    simpl. rewrite bool_decide_eq_true_2 by done. simpl.
    destruct (field_duplicate_body e2 p2 (generateRequestId e2) 200)
      as (? & ? & ? & _). done. }
  split; [apply Hshort|].
  intros Hfirst Hclock w1.
  destruct (success_records_key b1 p1 t u Hp1 Ht1 Hu1 e1 w Hfirst Hclock)
    as [Hkey Hprod].
  destruct (Hshort w1 Hkey) as (_ & ? & ? & Hprod2 & ? & ?).
  repeat (split; [done|]). split; [|done].
  rewrite Hprod, Hprod2. split; [by intros [= ->]|by intros ->].
Qed.

Lemma duplicate_short_circuit_witness :
  let b1 := body_of "p1" "test_abc" "u1" (Some "simulated") in
  let b2 := body_of "p2" "test_abc" "u1" (Some "native") in
  let w1 := (handler env_ok (POST b1) world0).2 in
  is_Some (orderCache w1 !! "u1_test_abc")
  ∧ field (handler env_ok (POST b2) w1).1 "is_duplicate" = Some (JBool true)
  ∧ field (handler env_ok (POST b2) w1).1 "validated_product_id"
      = Some (JStr "p2")
  ∧ trace (handler env_ok (POST b2) w1).2
      = trace w1 ++ [EvCacheHas "u1_test_abc"].
Proof.
  intros b1 b2 w1.
  assert (Hkey : is_Some (orderCache w1 !! "u1_test_abc")).
  { eexists. vm_compute. reflexivity. }
  destruct (duplicate_short_circuit env_ok env_ok world0 b1 b2
              "p1" "p2" "test_abc" "u1"
              eq_refl eq_refl eq_refl eq_refl eq_refl eq_refl) as [_ Hsecond].
  destruct (duplicate_short_circuit env_ok env_ok w1 b1 b2
              "p1" "p2" "test_abc" "u1"
              eq_refl eq_refl eq_refl eq_refl eq_refl eq_refl) as [Hshort _].
  destruct (Hshort Hkey) as (_ & _ & Hdup & _ & _ & Htrace).
  destruct Hsecond as (_ & _ & _ & Hprod & _).
  - vm_compute. reflexivity.
  - vm_compute. discriminate.
  - exact (conj Hkey (conj Hdup (conj Hprod Htrace))).
Defined.

Lemma sweep_after_insert_witness :
  let old := mkOrder "p0" "u0" 1600000000000 in
  let recent := mkOrder "p9" "u9" 1699999999000 in
  let w := mkWorld (<["u9_tok_9" := recent]> {["u0_tok_0" := old]}) [] in
  let b := body_of "p1" "test_abc" "u1" (Some "simulated") in
  let swept := orderCache (handler env_ok (POST b) w).2 in
  swept !! "u0_tok_0" = None ∧ swept !! "u9_tok_9" = Some recent.
Proof.
  intros old recent w b swept.
  destruct (sweep_after_insert b "p1" "test_abc" "u1"
              eq_refl eq_refl eq_refl env_ok w) as [_ Hsweep].
  - vm_compute. reflexivity.
  - vm_compute. reflexivity.
  - split.
    + apply (Hsweep "u0_tok_0" old); [vm_compute; reflexivity|].
      vm_compute. reflexivity.
    + apply (Hsweep "u9_tok_9" recent); [vm_compute; reflexivity|].
      vm_compute. reflexivity.
Defined.

(** C2, as stated, fails: with [platform] omitted and the required fields
    present, the handler does not behave as for a non-pico platform such as
    ["native"]; it calls the live validator and never the simulated one. *)
Lemma omitted_platform_not_simulated :
  let b := body_of "p1" "test_abc" "u1" None in
  let tr := trace (handler env_ok (POST b) world0).2 in
  platform b = None
  ∧ existsb is_live_call tr = true
  ∧ existsb is_simulated_call tr = false
  ∧ field (handler env_ok (POST b) world0).1 "message"
      ≠ field (handler env_ok (POST (with_platform b "native")) world0).1 "message".
Proof.
  intros b tr. split; [reflexivity|]. split; [by vm_compute|].
  split; [by vm_compute|]. vm_compute. discriminate.
Qed.

Lemma omitted_platform_is_pico_witness :
  let b := body_of "p1" "tok_1" "u1" None in
  handler env_ok (POST b) world0
    = handler env_ok (POST (with_platform b "pico")) world0.
Proof.
  intros b.
  apply (omitted_platform_is_pico b "p1" "tok_1" "u1"
           eq_refl eq_refl eq_refl env_ok world0); reflexivity.
Defined.

(** ** Requests that lack a required field *)

Lemma handler_missing_fields e b w :
  truthy (product_id b) = None ∨ truthy (purchase_token b) = None
    ∨ truthy (user_id b) = None →
  handler e (POST b) w =
    (res_json 200 (missing_parameters_body (generateRequestId e)), w).
Proof.
  intros H. unfold handler, POST, handler_try; simpl. unfold_M.
  destruct (truthy (product_id b)), (truthy (purchase_token b)),
    (truthy (user_id b)); try done; destruct H as [?|[?|?]]; discriminate.
Qed.

(** C6.  A POST request that lacks [product_id], [purchase_token] or
    [user_id] is answered with HTTP status 200 and a body whose [success] is
    false, and the world is left as it was: the cache is neither looked up
    nor changed, and no validator runs. *)
Theorem missing_field_fails_with_200 (e : Env) (w : World) (req : Request) :
  method req = "POST" →
  lacks_required_field req →
  statusCode (handler e req w).1 = 200%Z
  ∧ field (handler e req w).1 "success" = Some (JBool false)
  ∧ (handler e req w).2 = w.
Proof.
  destruct req as [m [b|]]; simpl; intros -> Hlack.
  - change (mkRequest "POST" (Some b)) with (POST b).
    rewrite handler_missing_fields; [done|].
    unfold lacks_required_field in Hlack; simpl in Hlack.
    destruct Hlack as [->|[->| ->]]; auto.
  - done.
Qed.

Lemma missing_field_fails_with_200_witness :
  let req := POST (mkBody (Some "p1") None (Some "u1") None None None) in
  statusCode (handler env_ok req world0).1 = 200%Z
  ∧ field (handler env_ok req world0).1 "success" = Some (JBool false)
  ∧ (handler env_ok req world0).2 = world0.
Proof.
  intros req. apply (missing_field_fails_with_200 env_ok world0 req).
  - reflexivity.
  - right. left. reflexivity.
Defined.

(** C9.  A required field that is present but equal to the empty string is
    treated exactly like an absent one: the request is handled as the same
    request with its empty fields removed, which lacks a required field, and
    the answer is the missing-parameters failure (status 200,
    [success = false]) with the world untouched: no cache access and no
    validator call. *)
Theorem empty_field_is_missing (e : Env) (w : World) (b : Body) :
  product_id b = Some "" ∨ purchase_token b = Some "" ∨ user_id b = Some "" →
  handler e (POST b) w = handler e (POST (without_empty_fields b)) w
  ∧ lacks_required_field (POST (without_empty_fields b))
  ∧ handler e (POST b) w
      = (res_json 200 (missing_parameters_body (generateRequestId e)), w)
  ∧ statusCode (handler e (POST b) w).1 = 200%Z
  ∧ field (handler e (POST b) w).1 "success" = Some (JBool false).
Proof.
  intros Hempty.
  assert (Hmiss : handler e (POST b) w
            = (res_json 200 (missing_parameters_body (generateRequestId e)), w)).
  { apply handler_missing_fields. destruct Hempty as [->|[->| ->]]; auto. }
  split; [|split; [|split; [done|by rewrite Hmiss]]].
  - unfold handler, POST, handler_try, without_empty_fields; simpl.
    by rewrite !truthy_remove_if_empty.
  - unfold lacks_required_field, without_empty_fields, remove_if_empty; simpl.
    destruct Hempty as [->|[->| ->]]; auto.
Qed.

Lemma empty_field_is_missing_witness :
  let b := mkBody (Some "p1") (Some "test_abc") (Some "") None None None in
  handler env_ok (POST b) world0
    = handler env_ok (POST (mkBody (Some "p1") (Some "test_abc") None None None None))
              world0.
Proof.
  intros b. apply (empty_field_is_missing env_ok world0 b).
  right. right. reflexivity.
Defined.

(** ** Every request *)

(** C8, as stated, fails: a POST request without [purchase_token] is
    answered with a body that carries a request identifier but no
    processing duration; the same holds for a repeated (duplicate) request
    and for a request with another method. *)
Lemma missing_field_response_has_no_duration :
  let missing := POST (mkBody (Some "p1") None (Some "u1") None None None) in
  let b := body_of "p1" "test_abc" "u1" (Some "simulated") in
  let w1 := (handler env_ok (POST b) world0).2 in
  method missing ≠ "OPTIONS"
  ∧ field (handler env_ok missing world0).1 "request_id"
      = Some (JStr "req_1700000000001_k3x9q2m7a")
  ∧ field (handler env_ok missing world0).1 "processing_time" = None
  ∧ field (handler env_ok (POST b) w1).1 "processing_time" = None
  ∧ field (handler env_ok (mkRequest "GET" None) world0).1 "processing_time"
      = None.
Proof.
  intros missing b w1. split; [discriminate|]. by vm_compute.
Qed.

(** C8, amended.  Every response other than the OPTIONS preflight carries
    the request identifier generated for the request; the measured
    processing duration (in milliseconds, the clock at the end minus the
    clock at the start) is carried exactly by the responses of requests that
    reached a validator, and by no other response. *)
Theorem request_id_always_duration_after_validation (e : Env) (w : World)
    (req : Request) :
  method req ≠ "OPTIONS" →
  field (handler e req w).1 "request_id" = Some (JStr (generateRequestId e))
  ∧ field (handler e req w).1 "processing_time"
      = if reaches_validator req w
        then Some (JNum (now_end e - now_start e)) else None.
Proof.
  intros Hm. destruct req as [m ob]. simpl in Hm. unfold reaches_validator.
  destruct (String.eqb_spec m "POST") as [->|Hne]; simpl.
  - destruct ob as [b|]; [|apply field_server_error_body].
    change (mkRequest "POST" (Some b)) with (POST b).
    destruct (truthy (product_id b)) as [p|] eqn:Hp;
      [destruct (truthy (purchase_token b)) as [t|] eqn:Ht;
       [destruct (truthy (user_id b)) as [u|] eqn:Hu|]|];
      try (rewrite handler_missing_fields by auto;
           apply field_missing_parameters_body).
    rewrite (handler_required_fields b p t u Hp Ht Hu). simpl.
    case_bool_decide as Hseen; simpl.
    + apply field_duplicate_body.
    + destruct (dispatch _ _ _ _ _ _) as [r w2].
      destruct (record_order _ _ _ _ _ _) as [[] w3].
      apply field_validated_body.
  - unfold handler; simpl.
    destruct (String.eqb_spec m "OPTIONS") as [|_]; [done|].
    destruct (String.eqb_spec m "POST") as [|_]; [done|]. simpl.
    apply field_method_not_allowed_body.
Qed.

Lemma request_id_always_duration_after_validation_witness :
  let b := body_of "p1" "test_abc" "u1" (Some "simulated") in
  field (handler env_ok (POST b) world0).1 "request_id"
    = Some (JStr "req_1700000000001_k3x9q2m7a")
  ∧ field (handler env_ok (POST b) world0).1 "processing_time"
    = Some (JNum 313).
Proof.
  intros b.
  apply (request_id_always_duration_after_validation env_ok world0 (POST b)).
  discriminate.
Defined.

(** ** Reachable caches *)

(** A call either leaves the cache as it was or is a successful,
    non-duplicate validation followed by the insert and the sweep. *)
Lemma handler_cache_cases e req w :
  orderCache (handler e req w).2 = orderCache w
  ∨ ∃ b p t u,
      req = POST b
      ∧ truthy (product_id b) = Some p
      ∧ truthy (purchase_token b) = Some t
      ∧ truthy (user_id b) = Some u
      ∧ field (handler e req w).1 "success" = Some (JBool true)
      ∧ field (handler e req w).1 "is_duplicate" = Some (JBool false)
      ∧ orderCache (handler e req w).2
          = cleanupOldOrders (now_sweep e)
              (<[orderKey u t := mkOrder p u (now_insert e)]> (orderCache w)).
Proof.
  destruct req as [m ob].
  destruct (String.eqb_spec m "POST") as [->|Hne].
  - destruct ob as [b|]; [|by left].
    change (mkRequest "POST" (Some b)) with (POST b).
    destruct (truthy (product_id b)) as [p|] eqn:Hp;
      [destruct (truthy (purchase_token b)) as [t|] eqn:Ht;
       [destruct (truthy (user_id b)) as [u|] eqn:Hu|]|];
      try (rewrite handler_missing_fields by auto; by left).
    rewrite (handler_required_fields b p t u Hp Ht Hu). simpl.
    case_bool_decide as Hseen; simpl; [by left|].
    destruct (dispatch_frame e b p t u
                (mkWorld (orderCache w) (trace w ++ [EvCacheHas (orderKey u t)])))
      as (r & evs & -> & _ & Hdup & _).
    destruct (field_validated_body e r 200) as (Hs & Hd & _).
    unfold record_order. rewrite Hdup in *.
    destruct (success r); simpl; [|by left].
    right. exists b, p, t, u. by rewrite Hs, Hd.
  - left. unfold handler; simpl.
    destruct (String.eqb m "OPTIONS"); [done|].
    by destruct (String.eqb_spec m "POST").
Qed.

(** X17.  What does hold of every reachable cache: an entry under key [k] was
    inserted by a call that answered [success = true], [is_duplicate = false]
    for the entry's user and product and for some token [t] with
    [k = user_id + "_" + t]. *)
Theorem cache_entries_validated w h :
  run w h →
  ∀ k o, orderCache w !! k = Some o →
    ∃ e b t resp,
      (e, POST b, resp) ∈ h
      ∧ truthy (product_id b) = Some (order_product_id o)
      ∧ truthy (purchase_token b) = Some t
      ∧ truthy (user_id b) = Some (order_user_id o)
      ∧ k = orderKey (order_user_id o) t
      ∧ field resp "success" = Some (JBool true)
      ∧ field resp "is_duplicate" = Some (JBool false).
Proof.
  induction 1 as [|w h e req Hrun IH]; intros k o Hk.
  - unfold world0 in Hk; simpl in Hk. by rewrite lookup_empty in Hk.
  - destruct (handler_cache_cases e req w)
      as [Hsame|(b & p & t & u & -> & Hp & Ht & Hu & Hs & Hd & Hcache)].
    + rewrite Hsame in Hk.
      destruct (IH k o Hk) as (e' & b' & t' & resp & Hin & Hrest).
      exists e', b', t', resp. split; [|done].
      apply elem_of_app. by left.
    + rewrite Hcache in Hk.
      apply cleanupOldOrders_lookup_Some in Hk as [Hk _].
      apply lookup_insert_Some in Hk as [[<- <-]|[_ Hk]].
      * exists e, b, t, (handler e (POST b) w).1. simpl.
        split; [|done]. apply elem_of_app. right. by left.
      * destruct (IH k o Hk) as (e' & b' & t' & resp & Hin & Hrest).
        exists e', b', t', resp. split; [|done].
        apply elem_of_app. by left.
Qed.

(** C3 fails on the code: the key [user_id + "_" + purchase_token] does not
    determine the pair.  After the pair ("a_b", "test_c") has been validated,
    the distinct pair ("a", "b_test_c"), which maps to the same key and was
    never passed to a validator (and which the simulated validator rejects),
    finds the key present in the cache reached after that single call and is
    answered as a processed duplicate. *)
Theorem dedup_key_collision :
  let first := body_of "p1" "test_c" "a_b" (Some "simulated") in
  let second := body_of "p2" "b_test_c" "a" (Some "simulated") in
  let w1 := (handler env_ok (POST first) world0).2 in
  let r2 := (handler env_ok (POST second) w1).1 in
  ("a", "b_test_c") ≠ ("a_b", "test_c")
  ∧ orderKey "a" "b_test_c" = orderKey "a_b" "test_c"
  ∧ run w1 [(env_ok, POST first, (handler env_ok (POST first) world0).1)]
  ∧ trace w1 = [EvCacheHas "a_b_test_c";
                EvValidateSimulated "p1" "test_c" "a_b";
                EvSetTimeout 300;
                EvCacheSet "a_b_test_c" (mkOrder "p1" "a_b" 1700000000311);
                EvCacheSweep 1700000000312]
  ∧ orderCache w1 !! orderKey "a" "b_test_c"
      = Some (mkOrder "p1" "a_b" 1700000000311)
  ∧ field r2 "success" = Some (JBool true)
  ∧ field r2 "is_duplicate" = Some (JBool true)
  ∧ field r2 "validated_product_id" = Some (JStr "p2")
  ∧ trace (handler env_ok (POST second) w1).2
      = trace w1 ++ [EvCacheHas "a_b_test_c"]
  ∧ success (validateSimulatedPurchase env_ok "p2" "b_test_c" "a" world0).1
      = false.
Proof.
  intros first second w1 r2. split; [discriminate|]. split; [reflexivity|].
  split; [apply (run_call world0 [] env_ok (POST first) run_start)|].
  by vm_compute.
Qed.

(** * Further properties *)

(** ** The sweep as a whole *)

Lemma cleanupOldOrders_subseteq now (cache : gmap string Order) :
  cleanupOldOrders now cache ⊆ cache.
Proof.
  apply map_subseteq_spec. intros k o Hk.
  by apply cleanupOldOrders_lookup_Some in Hk as [? _].
Qed.

(** X1.  The sweep loop computes a filter: the cache after
    [cleanupOldOrders] is the cache before restricted to the entries whose
    age is at most 24 hours.  An entry of exactly 24 hours is kept; the sweep
    never adds or changes an entry. *)
Theorem cleanupOldOrders_is_filter (now : Z) (cache : gmap string Order) :
  cleanupOldOrders now cache = filter (recent now) cache
  ∧ cleanupOldOrders now cache ⊆ cache.
Proof.
  assert (Heq : cleanupOldOrders now cache = filter (recent now) cache).
  { apply map_eq. intros k. apply option_eq. intros o.
    rewrite cleanupOldOrders_lookup_Some, map_lookup_filter_Some.
    unfold recent; simpl. split; intros [? ?]; split; (done || lia). }
  split; [done|]. rewrite Heq. apply map_filter_subseteq.
Qed.

(** X2.  Sweeps compose: a sweep at a later instant absorbs an earlier one,
    so sweeping twice (in particular twice at the same instant) leaves the
    same cache as the later sweep alone. *)
Theorem later_sweep_absorbs_earlier (now now' : Z) (cache : gmap string Order) :
  (now ≤ now')%Z →
  cleanupOldOrders now' (cleanupOldOrders now cache)
    = cleanupOldOrders now' cache.
Proof.
  intros Hle. apply map_eq. intros k. apply option_eq. intros o.
  rewrite !cleanupOldOrders_lookup_Some. split.
  - by intros [[? _] ?].
  - intros [? ?]. repeat split; (done || lia).
Qed.

Lemma later_sweep_absorbs_earlier_witness :
  let cache : gmap string Order :=
    <["u9_tok_9" := mkOrder "p9" "u9" 1699999999000]>
      {["u0_tok_0" := mkOrder "p0" "u0" 1600000000000]} in
  cleanupOldOrders 1700000000312 (cleanupOldOrders 1700000000000 cache)
    = cleanupOldOrders 1700000000312 cache.
Proof.
  intros cache. apply (later_sweep_absorbs_earlier 1700000000000 1700000000312).
  lia.
Defined.

(** ** What a call does to the cache *)

(** A call changes the cache only by recording a key that was absent, after
    a successful validation, and sweeping. *)
Lemma handler_cache_step e req w :
  orderCache (handler e req w).2 = orderCache w
  ∨ ∃ b p t u,
      req = POST b
      ∧ truthy (product_id b) = Some p
      ∧ truthy (purchase_token b) = Some t
      ∧ truthy (user_id b) = Some u
      ∧ orderCache w !! orderKey u t = None
      ∧ field (handler e req w).1 "success" = Some (JBool true)
      ∧ orderCache (handler e req w).2
          = cleanupOldOrders (now_sweep e)
              (<[orderKey u t := mkOrder p u (now_insert e)]> (orderCache w)).
Proof.
  destruct (handler_cache_cases e req w)
    as [Hsame|(b & p & t & u & -> & Hp & Ht & Hu & Hs & Hd & Hcache)];
    [by left|].
  destruct (orderCache w !! orderKey u t) as [o|] eqn:Hkey.
  - exfalso. revert Hd.
    rewrite (handler_required_fields b p t u Hp Ht Hu). simpl.
    rewrite bool_decide_eq_true_2 by (by rewrite Hkey). simpl.
    destruct (field_duplicate_body e p (generateRequestId e) 200)
      as (_ & -> & _). discriminate.
  - right. exists b, p, t, u. by rewrite Hkey.
Qed.

(** A call that runs with nothing interleaved is the duplicate check, the
    validator and the resumption, one after the other; the validator leaves
    the cache as the check saw it. *)
Lemma handler_check_await_resume e b w p t u :
  truthy (product_id b) = Some p →
  truthy (purchase_token b) = Some t →
  truthy (user_id b) = Some u →
  orderCache w !! orderKey u t = None →
  ∃ r w2,
    dispatch e b p t u
      (mkWorld (orderCache w) (trace w ++ [EvCacheHas (orderKey u t)])) = (r, w2)
    ∧ orderCache w2 = orderCache w
    ∧ handler e (POST b) w = handler_resume e p t u r w2.
Proof.
  intros Hp Ht Hu Hkey.
  rewrite (handler_required_fields b p t u Hp Ht Hu). simpl.
  rewrite bool_decide_eq_false_2 by (rewrite Hkey; by intros [? ?]).
  destruct (dispatch_frame e b p t u
              (mkWorld (orderCache w) (trace w ++ [EvCacheHas (orderKey u t)])))
    as (r & evs & Hd & _).
  rewrite Hd. eexists _, _. split; [reflexivity|]. split; [done|].
  unfold handler_resume. unfold_M.
  by destruct (record_order _ _ _ _ _ _) as [[] w3].
Qed.

(** In a call that runs with nothing interleaved, no entry is overwritten. *)
Lemma uninterrupted_call_never_overwrites (e : Env) (req : Request)
    (w : World) (k : string) :
  let cache' := orderCache (handler e req w).2 in
  (∀ o, orderCache w !! k = Some o →
     cache' !! k = Some o
     ∨ cache' !! k = None
       ∧ (now_sweep e - timestamp o > twentyFourHours)%Z
       ∧ field (handler e req w).1 "success" = Some (JBool true))
  ∧ (∀ o, cache' !! k = Some o → orderCache w !! k = None →
     ∃ b p t u,
       req = POST b
       ∧ truthy (product_id b) = Some p
       ∧ truthy (purchase_token b) = Some t
       ∧ truthy (user_id b) = Some u
       ∧ k = orderKey u t ∧ o = mkOrder p u (now_insert e)).
Proof.
  intros cache'. subst cache'.
  destruct (handler_cache_step e req w)
    as [->|(b & p & t & u & -> & Hp & Ht & Hu & Hfresh & Hs & ->)].
  - split; [by left|]. intros o Ho Hnone. congruence.
  - split.
    + intros o Ho.
      assert (Hins : <[orderKey u t := mkOrder p u (now_insert e)]>
                       (orderCache w) !! k = Some o).
      { rewrite lookup_insert_ne; [done|]. intros <-. congruence. }
      destruct (decide (now_sweep e - timestamp o > twentyFourHours)%Z).
      * right. split; [by eapply cleanupOldOrders_expired|done].
      * left. apply cleanupOldOrders_kept; [done|lia].
    + intros o Ho Hnone.
      apply cleanupOldOrders_lookup_Some in Ho as [Ho _].
      apply lookup_insert_Some in Ho as [[<- <-]|[_ Ho]]; [|congruence].
      by exists b, p, t, u.
Qed.

(** The cache after the resumption, in terms of the validation result. *)
Lemma handler_resume_cache e p t u r w :
  orderCache (handler_resume e p t u r w).2
    = if success r && negb (is_duplicate r)
      then cleanupOldOrders (now_sweep e)
             (<[orderKey u t := mkOrder p u (now_insert e)]> (orderCache w))
      else orderCache w.
Proof.
  unfold handler_resume, record_order, cache_set, cache_sweep. unfold_M.
  by destruct (success r && negb (is_duplicate r)).
Qed.

(** X3.  Cache entries are write-once as long as no overlapping call has
    recorded the same key while this call awaited its validator.  When a
    call resumes after the await with its key still absent from the cache,
    an entry that is in the cache is afterwards either still there with the
    same value or gone, and gone only by the sweep that follows a successful
    validation, being older than 24 hours; an entry that is new is the order
    of this very request under its own key, stamped with the insert
    instant. *)
Theorem entries_never_overwritten (e : Env) (p t u : string)
    (r : ValidationResult) (w : World) (k : string) :
  orderCache w !! orderKey u t = None →
  let cache' := orderCache (handler_resume e p t u r w).2 in
  (∀ o, orderCache w !! k = Some o →
     cache' !! k = Some o
     ∨ cache' !! k = None
       ∧ (now_sweep e - timestamp o > twentyFourHours)%Z
       ∧ success r = true ∧ is_duplicate r = false)
  ∧ (∀ o, cache' !! k = Some o → orderCache w !! k = None →
     k = orderKey u t ∧ o = mkOrder p u (now_insert e)
     ∧ success r = true ∧ is_duplicate r = false).
Proof.
  intros Hfresh cache'. subst cache'. rewrite handler_resume_cache.
  destruct (success r) eqn:Hs, (is_duplicate r) eqn:Hd; simpl;
    try (split; [by left|intros o Ho Hnone; congruence]).
  split.
  - intros o Ho.
    assert (Hins : <[orderKey u t := mkOrder p u (now_insert e)]>
                     (orderCache w) !! k = Some o).
    { rewrite lookup_insert_ne; [done|]. intros <-. congruence. }
    destruct (decide (now_sweep e - timestamp o > twentyFourHours)%Z).
    + right. split; [by eapply cleanupOldOrders_expired|done].
    + left. apply cleanupOldOrders_kept; [done|lia].
  - intros o Ho Hnone.
    apply cleanupOldOrders_lookup_Some in Ho as [Ho _].
    apply lookup_insert_Some in Ho as [[<- <-]|[_ Ho]]; [done|congruence].
Qed.

Lemma entries_never_overwritten_witness :
  let old := mkOrder "p0" "u0" 1600000000000 in
  let w := mkWorld {["u0_tok_0" := old]} [] in
  let r := mkResult true "模拟支付验证成功" "p1" false 1700000000310 in
  let cache' := orderCache (handler_resume env_ok "p1" "test_abc" "u1" r w).2 in
  cache' !! "u0_tok_0" = Some old
  ∨ cache' !! "u0_tok_0" = None
    ∧ (now_sweep env_ok - timestamp old > twentyFourHours)%Z
    ∧ success r = true ∧ is_duplicate r = false.
Proof.
  intros old w r cache'.
  apply (entries_never_overwritten env_ok "p1" "test_abc" "u1" r w "u0_tok_0").
  - vm_compute. reflexivity.
  - vm_compute. reflexivity.
Defined.

(** Without that condition the insert of line 75 replaces the entry: when
    two calls for one key overlap, both pass the duplicate check and the
    call that resumes second overwrites what the first recorded. *)
Lemma overlapping_call_overwrites (e : Env) (p t u : string)
    (r : ValidationResult) (w : World) (o : Order) :
  orderCache w !! orderKey u t = Some o →
  success r = true → is_duplicate r = false →
  (now_sweep e - now_insert e ≤ twentyFourHours)%Z →
  orderCache (handler_resume e p t u r w).2 !! orderKey u t
    = Some (mkOrder p u (now_insert e)).
Proof.
  intros _ Hs Hd Hclock. rewrite handler_resume_cache, Hs, Hd. simpl.
  apply cleanupOldOrders_kept; [apply lookup_insert_eq|done].
Qed.

(** X4.  The cache grows by at most one entry per call. *)
Theorem cache_grows_by_at_most_one (e : Env) (req : Request) (w : World) :
  size (orderCache (handler e req w).2) ≤ S (size (orderCache w)).
Proof.
  destruct (handler_cache_step e req w)
    as [->|(b & p & t & u & _ & _ & _ & _ & Hfresh & _ & ->)]; [lia|].
  etrans.
  - apply map_subseteq_size, cleanupOldOrders_subseteq.
  - by rewrite map_size_insert_None.
Qed.



(** ** Methods, status codes and the failure boundary *)

(** X6.  The HTTP status is 405 exactly for methods other than OPTIONS and
    POST and 200 in every other case, whatever the body, the cache or the
    outcome of validation; and every response carries the three CORS
    headers. *)
Theorem status_and_cors_headers (e : Env) (req : Request) (w : World) :
  statusCode (handler e req w).1
    = (if String.eqb (method req) "OPTIONS" || String.eqb (method req) "POST"
       then 200 else 405)%Z
  ∧ headers (handler e req w).1 = cors_headers.
Proof.
  destruct req as [m ob]; simpl.
  destruct (String.eqb_spec m "POST") as [->|Hne]; simpl.
  - destruct ob as [b|]; [|done].
    change (mkRequest "POST" (Some b)) with (POST b).
    destruct (truthy (product_id b)) as [p|] eqn:Hp;
      [destruct (truthy (purchase_token b)) as [t|] eqn:Ht;
       [destruct (truthy (user_id b)) as [u|] eqn:Hu|]|];
      try (by rewrite handler_missing_fields by auto).
    rewrite (handler_required_fields b p t u Hp Ht Hu). simpl.
    case_bool_decide as Hseen; simpl; [done|].
    destruct (dispatch _ _ _ _ _ _) as [r w2].
    by destruct (record_order _ _ _ _ _ _) as [[] w3].
  - unfold handler; simpl.
    destruct (String.eqb m "OPTIONS"); [done|].
    by destruct (String.eqb_spec m "POST").
Qed.

(** X7.  A request with a method other than POST does nothing: the cache
    and the trace are untouched whatever the body carries.  OPTIONS is
    answered without a body; any other method is answered [success = false]
    with the message [Method not allowed] and a request identifier. *)
Theorem other_methods_do_nothing (e : Env) (req : Request) (w : World) :
  method req ≠ "POST" →
  (handler e req w).2 = w
  ∧ (method req = "OPTIONS" → json (handler e req w).1 = None)
  ∧ (method req ≠ "OPTIONS" →
     field (handler e req w).1 "success" = Some (JBool false)
     ∧ field (handler e req w).1 "message" = Some (JStr "Method not allowed")
     ∧ field (handler e req w).1 "request_id"
         = Some (JStr (generateRequestId e))).
Proof.
  destruct req as [m ob]; simpl. intros Hne. unfold handler; simpl.
  destruct (String.eqb_spec m "OPTIONS") as [->|Hopt]; [done|].
  destruct (String.eqb_spec m "POST"); [done|]. simpl.
  repeat split; try done; intros _; repeat split; body_field.
Qed.

Lemma other_methods_do_nothing_witness :
  let req := mkRequest "GET"
               (Some (body_of "p1" "test_abc" "u1" (Some "simulated"))) in
  (handler env_ok req world0).2 = world0
  ∧ field (handler env_ok req world0).1 "success" = Some (JBool false).
Proof.
  intros req.
  destruct (other_methods_do_nothing env_ok req world0) as (Hw & _ & Hbody).
  - discriminate.
  - split; [exact Hw|]. apply Hbody. discriminate.
Defined.

(** X8.  The failure boundary: a POST request whose body is undefined makes
    the destructuring at line 39 throw; the [catch] turns this into a
    status-200 answer with [success = false], the internal-error message
    followed by the error's own message, the request identifier and the
    server time, and nothing else has happened. *)
Theorem undefined_body_is_caught (e : Env) (w : World) :
  let r := (handler e (mkRequest "POST" None) w).1 in
  statusCode r = 200%Z
  ∧ field r "success" = Some (JBool false)
  ∧ field r "message" = Some (JStr ("服务器内部错误: " +:+ body_type_error e))
  ∧ field r "request_id" = Some (JStr (generateRequestId e))
  ∧ field r "server_time" = Some (JDate (now_server_time e))
  ∧ (handler e (mkRequest "POST" None) w).2 = w.
Proof. simpl. repeat split; body_field. Qed.

(** X9.  The handler reads only [product_id], [purchase_token], [user_id]
    and [platform]: two bodies that agree on these four fields, whatever
    their [app_version] and [device_id], get the same answer and leave the
    same world. *)
Theorem unread_fields_are_ignored (e : Env) (w : World) (b b' : Body) :
  same_read_fields b b' →
  handler e (POST b) w = handler e (POST b') w.
Proof.
  intros (Hp & Ht & Hu & Hpl).
  unfold handler, POST, handler_try; simpl. by rewrite Hp, Ht, Hu, Hpl.
Qed.

Lemma unread_fields_are_ignored_witness :
  handler env_ok
    (POST (mkBody (Some "p1") (Some "test_abc") (Some "u1") None
                  (Some "1.0.3") (Some "headset-7"))) world0
  = handler env_ok (POST (body_of "p1" "test_abc" "u1" None)) world0.
Proof.
  apply unread_fields_are_ignored. repeat split.
Defined.

(** ** The live validator on every outcome *)

(** X10.  Whatever the remote outcome, the live validator returns a result:
    it succeeds exactly when the request resolved with a body whose [ret] is
    0; it never reports a duplicate, always echoes the product id, stamps the
    server time and leaves the cache alone. *)
Theorem live_validator_success_iff (e : Env) (p t u rid : string) (w : World) :
  let r := (validatePicoPurchase e p t u rid w).1 in
  (success r = true ↔ ∃ d, remote e = Resolved (Some d) ∧ ret d = Some 0%Z)
  ∧ is_duplicate r = false
  ∧ validated_product_id r = p
  ∧ server_time r = now_server_time e
  ∧ orderCache (validatePicoPurchase e p t u rid w).2 = orderCache w.
Proof.
  unfold validatePicoPurchase, emit. unfold_M. simpl.
  destruct (remote e) as [[d|]|err]; simpl.
  - case_bool_decide as Hret; simpl; (split; [|done]).
    + split; [intros _; by exists d | done].
    + split; [done | intros (d' & [= <-] & ?); done].
  - split; [|done]. split; [done | intros (d' & [=] & _)].
  - split; [|done]. split; [done | intros (d' & [=] & _)].
Qed.

(** X11.  The failure messages C5 leaves open.  A rejected request that is
    not a timeout is reported as a server error with the HTTP status when
    the remote answered, and as service unavailable when it did not; a
    resolved response with neither a message nor a return code is reported
    with the code [undefined].  All of them have [success = false]. *)
Theorem live_validator_fault_messages (e : Env) (p t u rid : string)
    (w : World) :
  let r := (validatePicoPurchase e p t u rid w).1 in
  (∀ error, remote e = Rejected error → code error ≠ Some ECONNABORTED →
     success r = false
     ∧ (∀ status, response_status error = Some status →
          message r = "PICO服务器错误: " +:+ pretty status)
     ∧ (response_status error = None → message r = "支付验证服务暂时不可用"))
  ∧ (∀ data, remote e = Resolved data →
       truthy (data ≫= msg) = None → data ≫= ret = None →
       success r = false ∧ message r = "PICO验证失败: 错误码: undefined").
Proof.
  intros r. subst r. unfold validatePicoPurchase, emit.
  unfold mbind at 1 2, mret, M_bind, M_ret. simpl. split.
  - intros error -> Hcode. simpl. unfold pico_error_message.
    rewrite bool_decide_eq_false_2 by done.
    split; [done|]. split; [by intros status ->|by intros ->].
  - intros data -> Hmsg Hret.
    assert (remote_ok data = false) as ->.
    { destruct data as [d|]; [|done]. simpl in *.
      rewrite bool_decide_eq_false_2; [done|congruence]. }
    simpl. unfold remote_reason. by rewrite Hmsg, Hret.
Qed.

Lemma live_validator_fault_messages_witness :
  message (validatePicoPurchase
             (env_remote (Rejected (mkError (Some "ERR_BAD_RESPONSE") (Some 502%Z)
                                            "Request failed with status code 502")))
             "p1" "tok" "u1" "req_1" world0).1 = "PICO服务器错误: 502"
  ∧ message (validatePicoPurchase
               (env_remote (Rejected (mkError (Some "ENOTFOUND") None
                                              "getaddrinfo ENOTFOUND")))
               "p1" "tok" "u1" "req_1" world0).1 = "支付验证服务暂时不可用"
  ∧ message (validatePicoPurchase (env_remote (Resolved None))
               "p1" "tok" "u1" "req_1" world0).1
      = "PICO验证失败: 错误码: undefined".
Proof.
  split; [|split].
  - destruct (live_validator_fault_messages
                (env_remote (Rejected (mkError (Some "ERR_BAD_RESPONSE")
                                               (Some 502%Z)
                                               "Request failed with status code 502")))
                "p1" "tok" "u1" "req_1" world0) as [Hrejected _].
    destruct (Hrejected _ eq_refl) as (_ & Hstatus & _); [discriminate|].
    exact (Hstatus 502%Z eq_refl).
  - destruct (live_validator_fault_messages
                (env_remote (Rejected (mkError (Some "ENOTFOUND") None
                                               "getaddrinfo ENOTFOUND")))
                "p1" "tok" "u1" "req_1" world0) as [Hrejected _].
    destruct (Hrejected _ eq_refl) as (_ & _ & Hnone); [discriminate|].
    exact (Hnone eq_refl).
  - destruct (live_validator_fault_messages (env_remote (Resolved None))
                "p1" "tok" "u1" "req_1" world0) as [_ Hresolved].
    exact (proj2 (Hresolved None eq_refl eq_refl eq_refl)).
Defined.

(** X12.  Each call of the live validator makes exactly one outbound
    request, whatever its outcome: a POST to the validation URL with an
    8-second timeout whose body is the unsigned request (application id,
    user, product and token as given) plus the [sign] field, five fields in
    all. *)
Theorem live_validator_outbound_request (e : Env) (p t u rid : string)
    (w : World) :
  ∃ data,
    trace (validatePicoPurchase e p t u rid w).2
      = trace w ++ [EvValidatePico p t u rid;
                    EvAxiosPost VALIDATION_URL data 8000]
    ∧ data = <["sign" := generatePicoSignature
                           (unsigned_request (APP_ID e) u p t) (now_sign e)]>
               (unsigned_request (APP_ID e) u p t)
    ∧ data !! "app_id" = Some (APP_ID e)
    ∧ data !! "user_id" = Some u
    ∧ data !! "product_id" = Some p
    ∧ data !! "purchase_token" = Some t
    ∧ dom data = {["app_id"; "user_id"; "product_id"; "purchase_token"; "sign"]}.
Proof.
  eexists. split; [|split; [reflexivity|]].
  - unfold validatePicoPurchase, emit. unfold_M. simpl.
    destruct (remote e) as [data|err]; [destruct (remote_ok data)|]; simpl;
      by rewrite <- !(assoc_L (++)).
  - unfold unsigned_request. repeat split; by simplify_map_eq.
Qed.

(** ** The canonical string of the signature stub *)

Lemma substring_prefix (s r : string) :
  String.substring 0 (String.length s) (s +:+ r) = s.
Proof.
  induction s as [|c s IH]; simpl.
  - by destruct r.
  - by rewrite IH.
Qed.

Lemma length_append (s r : string) :
  String.length (s +:+ r) = String.length s + String.length r.
Proof. induction s as [|d s IH]; [done|]. rewrite append_String. simpl. by rewrite IH. Qed.

(** [slice(0, -1)] removes a trailing character. *)
Lemma slice_0_m1_append_char (s r : string) :
  String.length r = 1 → slice_0_m1 (s +:+ r) = s.
Proof.
  intros Hr. unfold slice_0_m1. rewrite length_append, Hr.
  replace (String.length s + 1 - 1) with (String.length s) by lia.
  apply substring_prefix.
Qed.

Lemma sorted_keys_of_request (app u p t : string) :
  merge_sort key_le (map fst (map_to_list (unsigned_request app u p t)))
    = ["app_id"; "product_id"; "purchase_token"; "user_id"].
Proof. by vm_compute. Qed.

Lemma sorted_keys_of_signed_request (app u p t sign : string) :
  merge_sort key_le
    (map fst (map_to_list (<["sign" := sign]> (unsigned_request app u p t))))
    = ["app_id"; "product_id"; "purchase_token"; "sign"; "user_id"].
Proof. by vm_compute. Qed.

(** X13.  For the request the live validator sends, the canonical string
    computed by the signature stub lists the four fields in the order of
    their names, as [name=value] items joined by [&], with no trailing [&];
    a [sign] field already present is left out. *)
Theorem signString_of_request (app u p t : string) :
  signString (unsigned_request app u p t)
    = "app_id=" +:+ app +:+ "&product_id=" +:+ p
        +:+ "&purchase_token=" +:+ t +:+ "&user_id=" +:+ u
  ∧ ∀ sign, signString (<["sign" := sign]> (unsigned_request app u p t))
            = "app_id=" +:+ app +:+ "&product_id=" +:+ p
                +:+ "&purchase_token=" +:+ t +:+ "&user_id=" +:+ u.
Proof.
  split; [|intros sign]; unfold signString;
    rewrite ?sorted_keys_of_request, ?sorted_keys_of_signed_request; simpl;
    unfold unsigned_request; simplify_map_eq; simpl;
    (etrans; [|apply (slice_0_m1_append_char _ "&"); reflexivity]);
    f_equal; rewrite <- !append_assoc; reflexivity.
Qed.

(** ** Request identifiers *)

Lemma occurs_digit (n : N) (s : string) :
  occurs underscore (String (pretty_N_char n) s) = occurs underscore s.
Proof. unfold pretty_N_char. by repeat case_match. Qed.

Lemma occurs_pretty_N_go (x : N) (s : string) :
  occurs underscore s = false → occurs underscore (pretty_N_go x s) = false.
Proof.
  revert s. induction (N.lt_wf_0 x) as [x _ IH]; intros s Hs.
  destruct (decide (x = 0)%N) as [->|Hx]; [by rewrite pretty_N_go_0|].
  rewrite pretty_N_go_step by lia. apply IH.
  - apply N.div_lt; lia.
  - by rewrite occurs_digit.
Qed.

(** The decimal rendering of a clock reading has no underscore. *)
Lemma occurs_pretty_Z (z : Z) : occurs underscore (pretty z) = false.
Proof.
  assert (HN : ∀ n : N, occurs underscore (pretty n) = false).
  { intros n. unfold pretty, pretty_N. case_decide; [done|].
    by apply occurs_pretty_N_go. }
  destruct z as [|q|q]; [done|apply HN|].
  change (pretty (Z.neg q)) with ("-" +:+ pretty (N.pos q)).
  rewrite append_String. simpl. apply HN.
Qed.

(** A string is cut in only one way at the first occurrence of a
    character. *)
Lemma split_at_first c (d1 d2 r1 r2 : string) :
  occurs c d1 = false → occurs c d2 = false →
  d1 +:+ String c r1 = d2 +:+ String c r2 → d1 = d2 ∧ r1 = r2.
Proof.
  revert d2. induction d1 as [|x d1 IH]; intros [|y d2]; simpl;
    rewrite ?append_String; intros H1 H2 Heq.
  - by injection Heq.
  - injection Heq as -> _. by rewrite Ascii.eqb_refl in H2.
  - injection Heq as -> _. by rewrite Ascii.eqb_refl in H1.
  - injection Heq as -> Heq.
    destruct (Ascii.eqb c y); [done|].
    destruct (IH d2 H1 H2 Heq) as [-> ->]. done.
Qed.

(** X14.  Request identifiers are as distinct as their ingredients: two
    identifiers are equal only if both the clock reading and the random
    suffix they were built from are equal. *)
Theorem generateRequestId_inj (e1 e2 : Env) :
  generateRequestId e1 = generateRequestId e2 →
  now_request_id e1 = now_request_id e2
  ∧ random_suffix e1 = random_suffix e2.
Proof.
  unfold generateRequestId. intros Heq.
  apply (inj (String.append "req_")) in Heq.
  apply split_at_first in Heq as [Hnow Hrand];
    [|apply occurs_pretty_Z|apply occurs_pretty_Z].
  split; [by apply (inj pretty)|done].
Qed.

Lemma generateRequestId_inj_witness :
  now_request_id (env_remote (Resolved None)) = now_request_id env_ok
  ∧ random_suffix (env_remote (Resolved None)) = random_suffix env_ok.
Proof.
  apply (generateRequestId_inj (env_remote (Resolved None)) env_ok).
  reflexivity.
Defined.

(** ** Dispatch and recording *)

(** X15.  The platform test is an exact comparison with ["pico"]: for any
    other platform string (another case, ["native"], the empty string) a
    request with the three required fields and a fresh key goes to the
    simulated validator, and no outbound request is made. *)
Theorem other_platform_is_simulated (e : Env) (w : World) (b : Body)
    (p t u pl : string) :
  platform b = Some pl → pl ≠ "pico" →
  truthy (product_id b) = Some p →
  truthy (purchase_token b) = Some t →
  truthy (user_id b) = Some u →
  orderCache w !! orderKey u t = None →
  ∃ rest,
    trace (handler e (POST b) w).2
      = trace w ++ [EvCacheHas (orderKey u t);
                    EvValidateSimulated p t u;
                    EvSetTimeout 300] ++ rest
    ∧ forallb is_cache_event rest = true.
Proof.
  intros Hpl Hne Hp Ht Hu Hkey.
  rewrite (handler_required_fields b p t u Hp Ht Hu). simpl.
  rewrite bool_decide_eq_false_2 by (rewrite Hkey; by intros [? ?]).
  unfold dispatch. rewrite Hpl. simpl.
  destruct (String.eqb_spec pl "pico") as [|_]; [done|].
  unfold validateSimulatedPurchase, record_order, emit, cache_set, cache_sweep.
  unfold_M. simpl.
  destruct (_ || _); simpl; rewrite <- !(assoc_L (++)); simpl;
    eexists; (split; [reflexivity|]); reflexivity.
Qed.

Lemma other_platform_is_simulated_witness :
  ∃ rest,
    trace (handler env_ok (POST (body_of "p1" "tok_1" "u1" (Some "PICO")))
             world0).2
      = [] ++ [EvCacheHas "u1_tok_1"; EvValidateSimulated "p1" "tok_1" "u1";
               EvSetTimeout 300] ++ rest
    ∧ forallb is_cache_event rest = true.
Proof.
  apply (other_platform_is_simulated env_ok world0
           (body_of "p1" "tok_1" "u1" (Some "PICO")) "p1" "tok_1" "u1" "PICO");
    (reflexivity || discriminate).
Defined.

(** X16.  A successful validation is recorded under the request's key: when
    a request with the three required fields is answered [success = true],
    [is_duplicate = false], and the clock moved by at most 24 hours between
    the insert and the sweep, the cache afterwards maps
    [user_id + "_" + purchase_token] to the request's product and user,
    stamped with the insert instant; the key was not in the cache before. *)
Theorem successful_validation_is_recorded (e : Env) (w : World) (b : Body)
    (p t u : string) :
  truthy (product_id b) = Some p →
  truthy (purchase_token b) = Some t →
  truthy (user_id b) = Some u →
  field (handler e (POST b) w).1 "success" = Some (JBool true) →
  field (handler e (POST b) w).1 "is_duplicate" = Some (JBool false) →
  (now_sweep e - now_insert e ≤ twentyFourHours)%Z →
  orderCache w !! orderKey u t = None
  ∧ orderCache (handler e (POST b) w).2 !! orderKey u t
      = Some (mkOrder p u (now_insert e)).
Proof.
  intros Hp Ht Hu Hs Hd Hclock.
  destruct (handler_cache_step e (POST b) w)
    as [Hsame|(b' & p' & t' & u' & [= <-] & Hp' & Ht' & Hu' & Hfresh & _ & ->)].
  - exfalso. revert Hs Hd Hsame.
    rewrite (handler_required_fields b p t u Hp Ht Hu). simpl.
    case_bool_decide as Hseen; simpl.
    + destruct (field_duplicate_body e p (generateRequestId e) 200)
        as (_ & -> & _). discriminate.
    + destruct (dispatch_frame e b p t u
                  (mkWorld (orderCache w) (trace w ++ [EvCacheHas (orderKey u t)])))
        as (r & evs & -> & _ & Hdup & _).
      unfold record_order. rewrite Hdup.
      destruct (success r) eqn:Hsucc; simpl.
      2:{ destruct (field_validated_body e r 200) as (-> & _).
          rewrite Hsucc. discriminate. }
      intros _ _ Hsame.
      assert (Hk : cleanupOldOrders (now_sweep e)
                (<[orderKey u t := mkOrder p u (now_insert e)]> (orderCache w))
                !! orderKey u t = Some (mkOrder p u (now_insert e))).
      { apply cleanupOldOrders_kept; [apply lookup_insert_eq|done]. }
      rewrite Hsame in Hk. apply Hseen. by eexists.
  - assert (p' = p ∧ t' = t ∧ u' = u) as (-> & -> & ->) by (split_and!; congruence).
    split; [done|].
    apply cleanupOldOrders_kept; [apply lookup_insert_eq|done].
Qed.

Lemma successful_validation_is_recorded_witness :
  let b := body_of "p1" "test_abc" "u1" (Some "simulated") in
  orderCache (handler env_ok (POST b) world0).2 !! "u1_test_abc"
    = Some (mkOrder "p1" "u1" 1700000000311).
Proof.
  intros b.
  apply (successful_validation_is_recorded env_ok world0 b "p1" "test_abc" "u1");
    try reflexivity.
  vm_compute. discriminate.
Defined.

Lemma cache_entries_validated_witness :
  let req := POST (body_of "p1" "test_abc" "u1" (Some "simulated")) in
  let resp := (handler env_ok req world0).1 in
  ∃ e b t r,
    (e, POST b, r) ∈ [(env_ok, req, resp)]
    ∧ truthy (product_id b) = Some "p1"
    ∧ truthy (purchase_token b) = Some t
    ∧ truthy (user_id b) = Some "u1"
    ∧ "u1_test_abc" = orderKey "u1" t
    ∧ field r "success" = Some (JBool true)
    ∧ field r "is_duplicate" = Some (JBool false).
Proof.
  intros req resp.
  apply (cache_entries_validated (handler env_ok req world0).2
           ([] ++ [(env_ok, req, resp)])
           (run_call world0 [] env_ok req run_start)
           "u1_test_abc" (mkOrder "p1" "u1" 1700000000311)).
  vm_compute. reflexivity.
Defined.

(** X18.  Dedup keys do not collide between users whose identifiers contain
    no underscore: for such users, equal keys mean the same user and the same
    purchase token. *)
Theorem orderKey_inj_without_underscore (u1 t1 u2 t2 : string) :
  occurs underscore u1 = false →
  occurs underscore u2 = false →
  orderKey u1 t1 = orderKey u2 t2 →
  u1 = u2 ∧ t1 = t2.
Proof. intros H1 H2 Heq. by apply (split_at_first underscore) in Heq. Qed.

Lemma orderKey_inj_without_underscore_witness :
  "u1" = "u1" ∧ "test_abc" = "test_abc".
Proof.
  apply (orderKey_inj_without_underscore "u1" "test_abc" "u1" "test_abc");
    reflexivity.
Defined.
